(** * svg-cli: the request/response core of [svg-cli.py]

    A shallow embedding of the command-line tool that asks a remote
    completion endpoint for SVG markup and stores it in a file.  Python
    [str] values are [string]s, [dict]s with string keys are [gmap]s, and
    the effects of the script (standard output, the file system, the
    outbound POST, [sys.exit] and exceptions) are threaded through an
    explicit state-and-exception monad. *)

From Stdlib Require Import ZArith Ascii Lia.
From stdpp Require Import gmap strings list.

(** ** Python [str] primitives used by the script *)

Module Str.

(** [len(s)] *)
Definition len (s : string) : nat := String.length s.

(** [s.startswith(p)] *)
Fixpoint startswith (s p : string) {struct p} : bool :=
  match p, s with
  | EmptyString, _ => true
  | String _ _, EmptyString => false
  | String c p', String d s' =>
      if Ascii.eqb c d then startswith s' p' else false
  end.

(** Offset of the leftmost occurrence of [sub] in [s], if any. *)
Fixpoint index_of (s sub : string) : option nat :=
  if startswith s sub then Some 0
  else match s with
       | EmptyString => None
       | String _ s' => S <$> index_of s' sub
       end.

(** [s.find(sub)]: the lowest offset, or the sentinel [-1]. *)
Definition find (s sub : string) : Z :=
  match index_of s sub with
  | Some n => Z.of_nat n
  | None => (-1)%Z
  end.

(** [sub in s] *)
Fixpoint contains (sub s : string) : bool :=
  startswith s sub ||
  match s with
  | EmptyString => false
  | String _ s' => contains sub s'
  end.

Fixpoint drop (n : nat) (s : string) : string :=
  match n, s with
  | O, _ => s
  | S _, EmptyString => EmptyString
  | S n', String _ s' => drop n' s'
  end.

Fixpoint take (n : nat) (s : string) : string :=
  match n, s with
  | O, _ => EmptyString
  | S _, EmptyString => EmptyString
  | S n', String c s' => String c (take n' s')
  end.

(** How a slice bound is normalised: a negative bound counts from the
    end, and every bound is clamped to [0 .. len]. *)
Definition slice_index (n i : Z) : Z :=
  if (i <? 0)%Z then Z.max (i + n) 0 else Z.min i n.

(** [s[start:stop]] *)
Definition slice (s : string) (start stop : Z) : string :=
  let n := Z.of_nat (len s) in
  let a := slice_index n start in
  let b := slice_index n stop in
  take (Z.to_nat (b - a)) (drop (Z.to_nat a) s).

End Str.

(** ** Values exchanged with the remote endpoint *)

(** The [content] of a message turn: a plain [str] on the create path, a
    list of [{"type": ..., "text": ...}] dictionaries on the edit path. *)
Inductive content :=
  | Text (s : string)
  | Blocks (bs : list (gmap string string)).

Record message := Message { role : string; content_of : content }.

(** The [data] dictionary handed to [requests.post(..., json=data)]. *)
Record payload := Payload {
  model : string;
  max_tokens : Z;
  system : string;
  messages : list message
}.

(** One outbound call: [requests.post(url, headers=..., json=..., timeout=...)]. *)
Record http_call := HttpCall {
  url : string;
  headers : gmap string string;
  json : payload;
  timeout : Z
}.

(** Exceptions that the script raises, catches or lets escape.
    [IOError] is Python 3's alias of [OSError], of which
    [FileNotFoundError] is a subclass. *)
Inductive exn :=
  | SystemExit (code : Z)
  | RequestException (e : string)
  | FileNotFoundError (e : string)
  | OSError (e : string)
  | KeyError (key : string)
  | IndexError
  | AttributeError.

(** A [requests.Response]: what [raise_for_status()] raises (if anything)
    and what [json()] yields.  The decoded body is kept at the shape the
    script relies on: an object whose values are lists of string-valued
    objects. *)
Record response := Response {
  status_error : option string;
  body : exn + gmap string (list (gmap string string))
}.

(** [requests.post] either raises a [RequestException] or returns. *)
Inductive reply :=
  | Refused (e : string)
  | Answered (r : response).

(** ** The process and its surroundings *)

Record world := World {
  (** [os.environ] once [dotenv.load_dotenv()] has run *)
  environ : gmap string string;
  (** the text that reading each existing path yields *)
  files : gmap string string;
  (** paths that cannot be opened for writing, with the error text *)
  write_errors : gmap string string;
  (** the remote service *)
  endpoint : http_call -> reply;
  (** lines written by [click.echo], oldest first *)
  stdout : list string;
  (** calls made through [requests.post], oldest first *)
  posted : list http_call
}.

Definition say (msg : string) (w : world) : world :=
  {| environ := environ w; files := files w; write_errors := write_errors w;
     endpoint := endpoint w; stdout := stdout w ++ [msg]; posted := posted w |}.

Definition sent (c : http_call) (w : world) : world :=
  {| environ := environ w; files := files w; write_errors := write_errors w;
     endpoint := endpoint w; stdout := stdout w; posted := posted w ++ [c] |}.

Definition stored (path text : string) (w : world) : world :=
  {| environ := environ w; files := <[path := text]> (files w);
     write_errors := write_errors w; endpoint := endpoint w;
     stdout := stdout w; posted := posted w |}.

Inductive outcome (A : Type) :=
  | Return (a : A)
  | Raise (e : exn).
Arguments Return {A} a.
Arguments Raise {A} e.

(** Computations of the script: state passing with exceptions. *)
Definition M (A : Type) : Type := world -> outcome A * world.

Definition ret {A} (a : A) : M A := fun w => (Return a, w).

Definition bind {A B} (m : M A) (k : A -> M B) : M B :=
  fun w =>
    match m w with
    | (Return a, w') => k a w'
    | (Raise e, w') => (Raise e, w')
    end.

Definition raise {A} (e : exn) : M A := fun w => (Raise e, w).

Definition reads {A} (f : world -> A) : M A := fun w => (Return (f w), w).

(** [try: m  except <classes selected by h>: ...] *)
Definition try_except {A} (m : M A) (h : exn -> option (M A)) : M A :=
  fun w =>
    match m w with
    | (Return a, w') => (Return a, w')
    | (Raise e, w') =>
        match h e with
        | Some k => k w'
        | None => (Raise e, w')
        end
    end.

Notation "x <- m ;; k" := (bind m (fun x => k))
  (at level 100, m at next level, right associativity).
Notation "m ;; k" := (bind m (fun _ => k))
  (at level 100, right associativity).

(** [click.echo(msg)] *)
Definition echo (msg : string) : M unit := fun w => (Return tt, say msg w).

(** [sys.exit(code)] *)
Definition sys_exit {A} (code : Z) : M A := raise (SystemExit code).

(** [with open(path, "r", encoding="utf-8") as f: f.read()] *)
Definition read_text (path : string) : M string :=
  fun w =>
    match files w !! path with
    | Some text => (Return text, w)
    | None => (Raise (FileNotFoundError path), w)
    end.

(** [with open(path, "w", encoding="utf-8") as f: f.write(text)] *)
Definition write_text (path text : string) : M unit :=
  fun w =>
    match write_errors w !! path with
    | Some e => (Raise (OSError e), w)
    | None => (Return tt, stored path text w)
    end.

(** [requests.post(url, headers=headers, json=data, timeout=timeout)] *)
Definition requests_post (c : http_call) : M response :=
  fun w =>
    match endpoint w c with
    | Refused e => (Raise (RequestException e), sent c w)
    | Answered r => (Return r, sent c w)
    end.

(** [response.raise_for_status()] *)
Definition raise_for_status (r : response) : M unit :=
  match status_error r with
  | Some e => raise (RequestException e)
  | None => ret tt
  end.

(** [response.json()] *)
Definition response_json (r : response)
  : M (gmap string (list (gmap string string))) :=
  match body r with
  | inl e => raise e
  | inr j => ret j
  end.

(** [d[key]] on a dictionary *)
Definition getitem {V} (d : gmap string V) (key : string) : M V :=
  match d !! key with
  | Some v => ret v
  | None => raise (KeyError key)
  end.

(** [l[0]] on a list *)
Definition getitem0 {V} (l : list V) : M V :=
  match l with
  | v :: _ => ret v
  | [] => raise IndexError
  end.

(** Truth value of an [Optional[str]]: [None] and the empty string are falsy. *)
Definition truthy (o : option string) : bool :=
  match o with
  | Some (String _ _) => true
  | _ => false
  end.

(** [a or b] *)
Definition py_or (a b : option string) : option string :=
  if truthy a then a else b.

(** The exit status of the interpreter for an outcome of the program. *)
Definition exit_code {A} (o : outcome A) : Z :=
  match o with
  | Return _ => 0
  | Raise (SystemExit code) => code
  | Raise _ => 1
  end.

(** ** The script *)

Definition API_KEY (w : world) : option string :=
  py_or (environ w !! "ANTHROPIC_API_KEY") (environ w !! "CLAUDE_API_KEY").

Definition API_URL : string := "https://api.anthropic.com/v1/messages".

Definition MODEL : string := "claude-3-opus-20240229".

Definition SVG_SYSTEM_PROMPT : string :=
"You are an expert SVG creator. The user will ask you to create or modify SVG images.

IMPORTANT INSTRUCTIONS:
1. Respond ONLY with valid SVG code
2. Do NOT include any explanations, comments, or markdown
3. Your response must start with <svg and end with </svg>
4. Create clean, optimized SVG code
5. Do not include any text outside the SVG tags

If editing an existing SVG, maintain its structure while implementing the requested changes.".

Definition validate_api_key : M unit :=
  key <- reads API_KEY ;;
  if negb (truthy key) then
    echo "Error: Claude API key not found. Please set ANTHROPIC_API_KEY in your environment." ;;
    sys_exit 1
  else ret tt.

Definition get_headers : M (gmap string string) :=
  validate_api_key ;;
  let headers : gmap string string :=
    {[ "anthropic-version" := "2023-06-01";
       "content-type" := "application/json" ]} in
  key <- reads API_KEY ;;
  match key with
  | None => raise AttributeError
  | Some k =>
      if Str.startswith k "sk-ant-" then
        ret (<["x-api-key" := k]> headers)
      else
        ret (<["authorization" := "Bearer " +:+ k]> headers)
  end.

(** The [data] dictionary of [create_svg]. *)
Definition create_svg_data (prompt : string) : payload :=
  {| model := MODEL;
     max_tokens := 4096;
     system := SVG_SYSTEM_PROMPT;
     messages :=
       [ {| role := "user";
            content_of :=
              Text ("Create an SVG image based on this description: " +:+ prompt) |} ] |}.

Definition create_svg (prompt : string) : M string :=
  headers <- get_headers ;;
  let data := create_svg_data prompt in
  try_except
    (response <- requests_post
        {| url := API_URL; headers := headers; json := data; timeout := 60 |} ;;
     raise_for_status response ;;
     result <- response_json response ;;
     blocks <- getitem result "content" ;;
     block <- getitem0 blocks ;;
     content <- getitem block "text" ;;
     if Str.contains "<svg" content && Str.contains "</svg>" content then
       let svg_start := Str.find content "<svg" in
       let svg_end := (Str.find content "</svg>" + 6)%Z in
       ret (Str.slice content svg_start svg_end)
     else
       echo "Error: Claude's response did not contain valid SVG code." ;;
       sys_exit 1)
    (fun e =>
       match e with
       | RequestException e =>
           Some (echo ("Error calling Claude API: " +:+ e) ;; sys_exit 1)
       | _ => None
       end).

(** The [data] dictionary of [edit_svg]. *)
Definition edit_svg_data (prompt svg_content : string) : payload :=
  {| model := MODEL;
     max_tokens := 4096;
     system := SVG_SYSTEM_PROMPT;
     messages :=
       [ {| role := "user";
            content_of :=
              Blocks
                [ {[ "type" := "text";
                     "text" := "Here is an SVG file. " +:+ prompt ]};
                  {[ "type" := "text"; "text" := svg_content ]} ] |} ] |}.

Definition edit_svg (input_file prompt : string) : M string :=
  svg_content <-
    try_except (read_text input_file)
      (fun e =>
         match e with
         | FileNotFoundError _ =>
             Some (echo ("Error: Input file '" +:+ input_file +:+ "' not found.") ;;
                   sys_exit 1)
         | _ => None
         end) ;;
  headers <- get_headers ;;
  let data := edit_svg_data prompt svg_content in
  try_except
    (response <- requests_post
        {| url := API_URL; headers := headers; json := data; timeout := 60 |} ;;
     raise_for_status response ;;
     result <- response_json response ;;
     blocks <- getitem result "content" ;;
     block <- getitem0 blocks ;;
     content <- getitem block "text" ;;
     if Str.contains "<svg" content && Str.contains "</svg>" content then
       let svg_start := Str.find content "<svg" in
       let svg_end := (Str.find content "</svg>" + 6)%Z in
       ret (Str.slice content svg_start svg_end)
     else
       echo "Error: Claude's response did not contain valid SVG code." ;;
       sys_exit 1)
    (fun e =>
       match e with
       | RequestException e =>
           Some (echo ("Error calling Claude API: " +:+ e) ;; sys_exit 1)
       | _ => None
       end).

(** [except IOError as e]: the classes the handler of the two commands
    catches, with [str(e)]. *)
Definition as_IOError (e : exn) : option string :=
  match e with
  | OSError msg | FileNotFoundError msg => Some msg
  | _ => None
  end.

Definition create (prompt output : string) : M unit :=
  echo ("Creating SVG from prompt: " +:+ prompt) ;;
  svg_content <- create_svg prompt ;;
  try_except
    (write_text output svg_content ;;
     echo ("SVG created successfully: " +:+ output))
    (fun e =>
       match as_IOError e with
       | Some msg => Some (echo ("Error saving SVG file: " +:+ msg) ;; sys_exit 1)
       | None => None
       end).

Definition edit (input output prompt : string) : M unit :=
  echo ("Editing SVG " +:+ input +:+ " with prompt: " +:+ prompt) ;;
  svg_content <- edit_svg input prompt ;;
  try_except
    (write_text output svg_content ;;
     echo ("SVG edited successfully: " +:+ output))
    (fun e =>
       match as_IOError e with
       | Some msg => Some (echo ("Error saving SVG file: " +:+ msg) ;; sys_exit 1)
       | None => None
       end).

(** ** Scenarios *)

(** The endpoint answers every call with a success status and a decodable
    body whose first content block carries [text]. *)
Definition answers_with (w : world) (text : string) : Prop :=
  ∀ c, ∃ result blocks block,
    endpoint w c = Answered {| status_error := None; body := inr result |} ∧
    result !! "content" = Some (block :: blocks) ∧
    block !! "text" = Some text.

(** The call fails in transit with message [e]: [requests.post] raises,
    or [raise_for_status] does, or [json()] raises a [RequestException]. *)
Definition fails_with (w : world) (e : string) : Prop :=
  ∀ c, endpoint w c = Refused e ∨
       ∃ r, endpoint w c = Answered r ∧
            (status_error r = Some e ∨
             (status_error r = None ∧ body r = inl (RequestException e))).

(** The endpoint answers with a success status and a decoded body that
    lacks what [result["content"][0]["text"]] reads; [e] is the exception
    that the failing subscript raises. *)
Definition answers_without_text (w : world) (e : exn) : Prop :=
  ∀ c, ∃ result,
    endpoint w c = Answered {| status_error := None; body := inr result |} ∧
    ((result !! "content" = None ∧ e = KeyError "content") ∨
     (result !! "content" = Some [] ∧ e = IndexError) ∨
     (∃ block blocks, result !! "content" = Some (block :: blocks) ∧
                      block !! "text" = None ∧ e = KeyError "text")).

(** A canned completion, shaped like the mocked body of the test suite. *)
Definition mock_response (text : string) : reply :=
  Answered
    {| status_error := None;
       body := inr {[ "content" :=
                        [ ({[ "text" := text; "type" := "text" ]}
                             : gmap string string) ] ]} |}.

(** A process started with the given environment, one SVG file on disk
    and an endpoint that always sends the same reply. *)
Definition mock_world (env : gmap string string) (r : reply) : world :=
  {| environ := env;
     files := {[ "test.svg" := "<svg><circle r='40' fill='red'/></svg>" ]};
     write_errors := ∅;
     endpoint := fun _ => r;
     stdout := [];
     posted := [] |}.

Definition test_env : gmap string string :=
  {[ "ANTHROPIC_API_KEY" := "test_api_key" ]}.

(** ** Proof automation for runs of the script *)

(** Name the headers computed from the credential [k], so that later
    simplification leaves the prefix test alone. *)
Ltac abstract_headers k h :=
  match goal with
  | |- context [if Str.startswith k "sk-ant-" then ?a else ?b] =>
      generalize (if Str.startswith k "sk-ant-" then a else b); intros h
  end.

(** Split on the next thing the endpoint's answer decides: the reply
    itself, its status, its body, the subscripts into the body, and the
    two substring tests. *)
Ltac answer_case :=
  match goal with
  | |- context [endpoint ?w ?c] =>
      destruct (endpoint w c) as [?|[[?|] [[]|?]]]
  | |- context [match ?d !! ?key with _ => _ end] => destruct (d !! key)
  | |- context [match ?l with [] => _ | _ :: _ => _ end] => destruct l
  | |- context [if ?b then _ else _] => destruct b
  end.


(** The same for a run that ended in [sys.exit]: the status is 1 and
    the line printed last begins with [Error]. *)
Ltac exit_leaf :=
  let Hc := fresh "Hc" in
  intros [= <- <-] ? Hc; simpl;
  first [ discriminate Hc
        | injection Hc as <-; split; [reflexivity|];
          eexists; split; [apply last_snoc|reflexivity] ].

Example find_present : Str.find "ab<svg>" "<svg" = 2%Z.
Proof. reflexivity. Qed.

Example find_absent : Str.find "abc" "<svg" = (-1)%Z.
Proof. reflexivity. Qed.

Example slice_negative : Str.slice "abcdef" (-3) 5 = "de".
Proof. reflexivity. Qed.

Example slice_crossed : Str.slice "abcdef" 4 2 = EmptyString.
Proof. reflexivity. Qed.

Example slice_sentinel : Str.slice "x<svg>y" 1 (-1 + 6) = "<svg".
Proof. reflexivity. Qed.

(** ** Facts about the string primitives *)

Section StrFacts.

Import Str.

Lemma startswith_empty s : startswith s EmptyString = true.
Proof. by destruct s. Qed.

Lemma startswith_len s p : startswith s p = true → len p ≤ len s.
Proof.
  unfold len. revert s; induction p as [|c p IH]; intros [|d s]; simpl;
    try done; try lia.
  destruct (Ascii.eqb c d); [|done]. intros H%IH. lia.
Qed.

Lemma startswith_take s p m :
  len p ≤ m → startswith (take m s) p = startswith s p.
Proof.
  revert s m; induction p as [|c p IH]; intros s m Hm; [done|].
  destruct m as [|m]; [simpl in Hm; lia|].
  destruct s as [|d s]; [done|]. simpl.
  destruct (Ascii.eqb c d); [|done]. apply IH. simpl in Hm. unfold len in *. lia.
Qed.

Lemma drop_empty k : drop k EmptyString = EmptyString.
Proof. by destruct k. Qed.

Lemma drop_drop a b s : drop a (drop b s) = drop (b + a) s.
Proof.
  revert s; induction b as [|b IH]; intros s; [done|].
  destruct s as [|c s]; simpl; [apply drop_empty|apply IH].
Qed.

Lemma take_empty m : take m EmptyString = EmptyString.
Proof. by destruct m. Qed.

Lemma drop_take k m s : drop k (take m s) = take (m - k) (drop k s).
Proof.
  revert m s; induction k as [|k IH]; intros m s.
  - by rewrite Nat.sub_0_r.
  - destruct m as [|m]; [done|].
    destruct s as [|c s]; simpl; [by rewrite take_empty|apply IH].
Qed.

Lemma len_take m s : len (take m s) = m `min` len s.
Proof.
  revert s; induction m as [|m IH]; intros [|c s]; simpl; try done.
  unfold len in *. simpl. by rewrite IH.
Qed.

Lemma len_drop k s : len (drop k s) = len s - k.
Proof.
  revert s; induction k as [|k IH]; intros [|c s]; simpl; done.
Qed.

Lemma take_all m s : len s ≤ m → take m s = s.
Proof.
  revert s; induction m as [|m IH]; intros [|c s] H; simpl in *; try done.
  - unfold len in H. simpl in H. lia.
  - f_equal. apply IH. unfold len in *. simpl in H. lia.
Qed.

Lemma take_drop n s : take n s +:+ drop n s = s.
Proof.
  revert s; induction n as [|n IH]; intros [|c s]; try done.
  change (String c (take n s +:+ drop n s) = String c s). by rewrite IH.
Qed.

(** [index_of] yields an offset at which [sub] occurs, inside [s], with
    no occurrence to its left. *)
Lemma index_of_Some s sub n :
  index_of s sub = Some n →
  startswith (drop n s) sub = true ∧ n + len sub ≤ len s ∧
  ∀ k, k < n → startswith (drop k s) sub = false.
Proof.
  revert n; induction s as [|c s IH]; intros n; simpl index_of.
  - destruct (startswith EmptyString sub) eqn:E; [|done].
    intros [= <-]. split; [done|]. split; [|lia].
    apply startswith_len in E. simpl in *. lia.
  - destruct (startswith (String c s) sub) eqn:E.
    + intros [= <-]. split; [done|]. split; [|lia].
      apply startswith_len in E. simpl in *. lia.
    + destruct (index_of s sub) as [m|] eqn:Em; [|done].
      intros [= <-]. destruct (IH m eq_refl) as (H1 & H2 & H3).
      split; [done|]. split; [unfold len in *; simpl; lia|].
      intros [|k] Hk; [done|]. apply H3. lia.
Qed.

Lemma index_of_None s sub k :
  index_of s sub = None → startswith (drop k s) sub = false.
Proof.
  revert k; induction s as [|c s IH]; intros k; simpl index_of.
  - destruct (startswith EmptyString sub) eqn:E; [done|].
    intros _. by rewrite drop_empty.
  - destruct (startswith (String c s) sub) eqn:E; [done|].
    destruct (index_of s sub) eqn:Em; [done|]. intros _.
    destruct k as [|k]; [done|]. by apply IH.
Qed.

(** Conversely, the leftmost occurrence is what [index_of] finds. *)
Lemma index_of_first s sub n :
  startswith (drop n s) sub = true → n ≤ len s →
  (∀ k, k < n → startswith (drop k s) sub = false) →
  index_of s sub = Some n.
Proof.
  revert n; induction s as [|c s IH]; intros n Hn Hle Hmin.
  - unfold len in Hle. simpl in Hle. assert (n = 0) as -> by lia.
    simpl in *. by rewrite Hn.
  - destruct n as [|n].
    + simpl in *. by rewrite Hn.
    + simpl index_of. pose proof (Hmin 0 ltac:(lia)) as H0.
      simpl in H0. rewrite H0.
      rewrite (IH n); [done|done|unfold len in *; simpl in Hle; lia|].
      intros k Hk. apply (Hmin (S k)). lia.
Qed.

Lemma contains_index_of sub s :
  contains sub s = if index_of s sub is Some _ then true else false.
Proof.
  induction s as [|c s IH]; simpl.
  - by destruct (startswith EmptyString sub).
  - destruct (startswith (String c s) sub); simpl; [done|].
    rewrite IH. by destruct (index_of s sub).
Qed.

Lemma contains_true sub s :
  contains sub s = true → ∃ n, index_of s sub = Some n.
Proof.
  rewrite contains_index_of. destruct (index_of s sub); [eauto|done].
Qed.

Lemma contains_false sub s :
  contains sub s = false → index_of s sub = None.
Proof.
  rewrite contains_index_of. by destruct (index_of s sub).
Qed.

End StrFacts.

(** ** The span cut out of a response text *)

Section Span.

Import Str.

Lemma startswith_cons s c p :
  startswith s (String c p) = true →
  ∃ s', s = String c s' ∧ startswith s' p = true.
Proof.
  destruct s as [|d s]; simpl; [done|].
  destruct (Ascii.eqb_spec c d); [subst; eauto|done].
Qed.

Lemma slice_nat s a b :
  a ≤ len s → b ≤ len s →
  slice s (Z.of_nat a) (Z.of_nat b) = take (b - a) (drop a s).
Proof.
  intros Ha Hb. unfold slice, slice_index.
  destruct (Z.ltb_spec (Z.of_nat a) 0); [lia|].
  destruct (Z.ltb_spec (Z.of_nat b) 0); [lia|].
  rewrite !Z.min_l by lia. rewrite Nat2Z.id. f_equal. lia.
Qed.

(** The two tags cannot overlap: an opening tag and a closing tag found
    in one text lie entirely to one side of each other. *)
Lemma tags_apart s i j :
  startswith (drop i s) "<svg" = true →
  startswith (drop j s) "</svg>" = true →
  i + 4 ≤ j ∨ j + 6 ≤ i.
Proof.
  intros Hi Hj.
  destruct (decide (i + 4 ≤ j)); [by left|].
  destruct (decide (j + 6 ≤ i)); [by right|]. exfalso.
  destruct (decide (i ≤ j)).
  - replace j with (i + (j - i)) in Hj by lia. rewrite <- drop_drop in Hj.
    assert (j - i < 4) as Hd by lia. revert Hd Hj. generalize (j - i) as d.
    intros d Hd Hj.
    apply startswith_cons in Hi as (t1 & E & Hi). rewrite E in Hj.
    apply startswith_cons in Hi as (t2 & -> & Hi).
    apply startswith_cons in Hi as (t3 & -> & Hi).
    apply startswith_cons in Hi as (t4 & -> & Hi).
    destruct d as [|[|[|[|d]]]]; simpl in Hj; try done. lia.
  - replace i with (j + (i - j)) in Hi by lia. rewrite <- drop_drop in Hi.
    assert (0 < i - j < 6) as Hd by lia. revert Hd Hi. generalize (i - j) as d.
    intros d Hd Hi.
    apply startswith_cons in Hj as (t1 & E & Hj). rewrite E in Hi.
    apply startswith_cons in Hj as (t2 & -> & Hj).
    apply startswith_cons in Hj as (t3 & -> & Hj).
    apply startswith_cons in Hj as (t4 & -> & Hj).
    apply startswith_cons in Hj as (t5 & -> & Hj).
    apply startswith_cons in Hj as (t6 & -> & Hj).
    destruct d as [|[|[|[|[|[|d]]]]]]; simpl in Hi; try done; lia.
Qed.

Variables (s : string) (i j : nat).
Hypothesis Hopen : index_of s "<svg" = Some i.
Hypothesis Hclose : index_of s "</svg>" = Some j.

(** What [content[svg_start:svg_end]] is, as offsets into the text. *)
Lemma span_offsets :
  slice s (find s "<svg") (find s "</svg>" + 6) =
  take (j + 6 - i) (drop i s).
Proof.
  unfold find. rewrite Hopen, Hclose.
  apply index_of_Some in Hopen as (_ & Hi & _).
  apply index_of_Some in Hclose as (_ & Hj & _). simpl in Hi, Hj.
  change 6%Z with (Z.of_nat 6). rewrite <- Nat2Z.inj_add.
  apply slice_nat; lia.
Qed.

Lemma span_crossed :
  j < i → slice s (find s "<svg") (find s "</svg>" + 6) = EmptyString.
Proof.
  intros Hlt. rewrite span_offsets.
  apply index_of_Some in Hopen as (Hi & _ & _).
  apply index_of_Some in Hclose as (Hj & _ & _).
  destruct (tags_apart s i j Hi Hj); [lia|].
  by replace (j + 6 - i) with 0 by lia.
Qed.

Lemma span_starts :
  i < j → startswith (take (j + 6 - i) (drop i s)) "<svg" = true.
Proof.
  intros Hlt. apply index_of_Some in Hopen as (Hi & _ & _).
  rewrite startswith_take; [done|simpl; lia].
Qed.

Lemma span_len : i < j → len (take (j + 6 - i) (drop i s)) = j + 6 - i.
Proof.
  intros Hlt. apply index_of_Some in Hclose as (_ & Hj & _). simpl in Hj.
  rewrite len_take, len_drop. lia.
Qed.

Lemma span_closes :
  i < j → index_of (take (j + 6 - i) (drop i s)) "</svg>" = Some (j - i).
Proof.
  intros Hlt. pose proof (span_len Hlt) as Hlen.
  apply index_of_Some in Hclose as (Hj & Hjlen & Hmin). simpl in Hjlen.
  apply index_of_first.
  - rewrite drop_take, drop_drop.
    replace (i + (j - i)) with j by lia.
    rewrite startswith_take; [done|simpl; lia].
  - lia.
  - intros k Hk. rewrite drop_take, drop_drop.
    rewrite startswith_take; [apply Hmin; lia|simpl; lia].
Qed.

(** The text splits into what precedes the span, the span, and what
    follows it. *)
Lemma span_split :
  i < j →
  s = take i s +:+ take (j + 6 - i) (drop i s) +:+ drop (j + 6) s.
Proof.
  intros Hlt. rewrite <- (take_drop i s) at 1. f_equal.
  rewrite <- (take_drop (j + 6 - i) (drop i s)) at 1. f_equal.
  rewrite drop_drop. f_equal. lia.
Qed.

Lemma span_reopens :
  i < j → index_of (take (j + 6 - i) (drop i s)) "<svg" = Some 0.
Proof.
  intros Hlt. apply index_of_first; [by apply span_starts|lia|lia].
Qed.

End Span.

(** Cutting the span out of a span that was cut with the opening tag in
    front of the closing tag changes nothing. *)
Lemma span_idempotent s i j :
  Str.index_of s "<svg" = Some i → Str.index_of s "</svg>" = Some j → i < j →
  let r := Str.slice s (Str.find s "<svg") (Str.find s "</svg>" + 6) in
  Str.contains "<svg" r = true ∧ Str.contains "</svg>" r = true ∧
  Str.slice r (Str.find r "<svg") (Str.find r "</svg>" + 6) = r.
Proof.
  intros Hi Hj Hlt r. subst r. rewrite (span_offsets s i j Hi Hj).
  pose proof (span_reopens s i j Hi Hlt) as Ho.
  pose proof (span_closes s i j Hj Hlt) as Hc.
  pose proof (span_len s i j Hj Hlt) as Hl.
  rewrite !contains_index_of, Ho, Hc. split; [done|]. split; [done|].
  rewrite (span_offsets _ _ _ Ho Hc). simpl Str.drop.
  apply take_all. lia.
Qed.


(** ** Running the script *)

Section Runs.

Import Str.

Lemma validate_api_key_missing w :
  truthy (API_KEY w) = false →
  ∃ w', validate_api_key w = (Raise (SystemExit 1), w') ∧
        posted w' = posted w ∧ files w' = files w ∧
        ∃ msg, stdout w' = stdout w ++ [msg].
Proof.
  intros H. unfold validate_api_key, bind, reads. rewrite H. simpl.
  eexists; split; [done|]. simpl. eauto.
Qed.

Lemma validate_api_key_present w :
  truthy (API_KEY w) = true → validate_api_key w = (Return tt, w).
Proof.
  intros H. unfold validate_api_key, bind, reads. by rewrite H.
Qed.

Lemma get_headers_missing w :
  truthy (API_KEY w) = false →
  ∃ w', get_headers w = (Raise (SystemExit 1), w') ∧
        posted w' = posted w ∧ files w' = files w ∧
        ∃ msg, stdout w' = stdout w ++ [msg].
Proof.
  intros H. destruct (validate_api_key_missing w H) as (w' & E & ?).
  exists w'. split; [|done]. unfold get_headers, bind at 1. by rewrite E.
Qed.

Lemma get_headers_present w k :
  API_KEY w = Some k → k ≠ EmptyString →
  get_headers w =
    (Return
       (if startswith k "sk-ant-" then
          <["x-api-key" := k]>
            ({[ "anthropic-version" := "2023-06-01";
                "content-type" := "application/json" ]} : gmap string string)
        else
          <["authorization" := "Bearer " +:+ k]>
            ({[ "anthropic-version" := "2023-06-01";
                "content-type" := "application/json" ]} : gmap string string)),
     w).
Proof.
  intros Hk Hne. unfold get_headers, bind.
  rewrite validate_api_key_present; [|rewrite Hk; by destruct k].
  unfold reads. rewrite Hk. by destruct (startswith k "sk-ant-").
Qed.

(** With a credential and a well-formed answer, [create_svg] sends one
    call and then branches on the two substring tests alone. *)
Lemma create_svg_answered w k text prompt :
  API_KEY w = Some k → k ≠ EmptyString → answers_with w text →
  ∃ h, create_svg prompt w =
    let w' := sent {| url := API_URL; headers := h;
                      json := create_svg_data prompt; timeout := 60 |} w in
    if contains "<svg" text && contains "</svg>" text then
      (Return (slice text (find text "<svg") (find text "</svg>" + 6)), w')
    else
      (Raise (SystemExit 1),
       say "Error: Claude's response did not contain valid SVG code." w').
Proof.
  intros Hk Hne Hans. eexists.
  unfold create_svg, bind at 1. rewrite (get_headers_present w k Hk Hne).
  unfold try_except, bind at 1, requests_post.
  match goal with |- context [endpoint w ?c] =>
    destruct (Hans c) as (result & blocks & block & -> & Hc & Ht) end.
  unfold bind, raise_for_status, response_json, getitem, getitem0. simpl.
  rewrite Hc. simpl. rewrite Ht. simpl.
  destruct (contains "<svg" text && contains "</svg>" text); reflexivity.
Qed.

Lemma edit_svg_answered w k text input svg prompt :
  files w !! input = Some svg →
  API_KEY w = Some k → k ≠ EmptyString → answers_with w text →
  ∃ h, edit_svg input prompt w =
    let w' := sent {| url := API_URL; headers := h;
                      json := edit_svg_data prompt svg; timeout := 60 |} w in
    if contains "<svg" text && contains "</svg>" text then
      (Return (slice text (find text "<svg") (find text "</svg>" + 6)), w')
    else
      (Raise (SystemExit 1),
       say "Error: Claude's response did not contain valid SVG code." w').
Proof.
  intros Hf Hk Hne Hans. eexists.
  unfold edit_svg, bind at 1, try_except at 1, read_text. rewrite Hf.
  unfold bind at 1. rewrite (get_headers_present w k Hk Hne).
  unfold try_except, bind at 1, requests_post.
  match goal with |- context [endpoint w ?c] =>
    destruct (Hans c) as (result & blocks & block & -> & Hc & Ht) end.
  unfold bind, raise_for_status, response_json, getitem, getitem0. simpl.
  rewrite Hc. simpl. rewrite Ht. simpl.
  destruct (contains "<svg" text && contains "</svg>" text); reflexivity.
Qed.

(** The headers built for a credential, read back. *)
Lemma get_headers_by_prefix_aux w k :
  API_KEY w = Some k → k ≠ EmptyString →
  ∃ h, get_headers w = (Return h, w) ∧
    (if startswith k "sk-ant-" then
       h !! "x-api-key" = Some k ∧ h !! "authorization" = None
     else
       h !! "authorization" = Some ("Bearer " +:+ k) ∧
       h !! "x-api-key" = None) ∧
    h !! "anthropic-version" = Some "2023-06-01" ∧
    h !! "content-type" = Some "application/json" ∧
    size h = 3.
Proof.
  intros Hk Hne. eexists. split; [by apply get_headers_present|].
  destruct (startswith k "sk-ant-").
  - split; [split; [apply lookup_insert_eq|by rewrite lookup_insert_ne]|].
    split; [by rewrite lookup_insert_ne|].
    split; [by rewrite lookup_insert_ne|].
    by rewrite map_size_insert_None.
  - split; [split; [apply lookup_insert_eq|by rewrite lookup_insert_ne]|].
    split; [by rewrite lookup_insert_ne|].
    split; [by rewrite lookup_insert_ne|].
    by rewrite map_size_insert_None.
Qed.

End Runs.

(** ** Properties of the specification *)

Section Claims.

Import Str.

Lemma mock_world_answers env text :
  answers_with (mock_world env (mock_response text)) text.
Proof.
  intros c. eexists _, _, _. split; [reflexivity|]. split; reflexivity.
Qed.

(** C3: for a non-empty credential, [get_headers] returns without
    touching the process state and its result is fixed by the credential
    alone; a credential starting with [sk-ant-] is sent as [x-api-key]
    with no [authorization] header, any other one as
    [authorization: Bearer ...] with no [x-api-key] header. *)
Theorem get_headers_by_prefix w k :
  API_KEY w = Some k → k ≠ EmptyString →
  ∃ h, get_headers w = (Return h, w) ∧
    (∀ w2, API_KEY w2 = Some k → (get_headers w2).1 = Return h) ∧
    if startswith k "sk-ant-" then
      h !! "x-api-key" = Some k ∧ h !! "authorization" = None
    else
      h !! "authorization" = Some ("Bearer " +:+ k) ∧
      h !! "x-api-key" = None.
Proof.
  intros Hk Hne. eexists. split; [by apply get_headers_present|].
  split; [intros w2 Hk2; by rewrite (get_headers_present w2 k)|].
  destruct (startswith k "sk-ant-"); split;
    first [apply lookup_insert_eq | by rewrite lookup_insert_ne].
Qed.

Lemma get_headers_by_prefix_witness :
  let w := mock_world {[ "CLAUDE_API_KEY" := "sk-ant-0123" ]} (Refused "down") in
  API_KEY w = Some "sk-ant-0123" ∧ "sk-ant-0123" ≠ EmptyString ∧
  ∃ h, get_headers w = (Return h, w) ∧
    (∀ w2, API_KEY w2 = Some "sk-ant-0123" → (get_headers w2).1 = Return h) ∧
    h !! "x-api-key" = Some "sk-ant-0123" ∧ h !! "authorization" = None.
Proof.
  intros w. split; [reflexivity|]. split; [discriminate|].
  apply (get_headers_by_prefix w "sk-ant-0123"); [reflexivity|discriminate].
Defined.

(** C4: when neither recognised environment variable holds a non-empty
    value, both commands end in [sys.exit(1)] and the list of calls made
    to the endpoint is what it was at the start. *)
Theorem missing_credential_exits_before_network w :
  truthy (environ w !! "ANTHROPIC_API_KEY") = false →
  truthy (environ w !! "CLAUDE_API_KEY") = false →
  (∀ prompt output, ∃ w',
      create prompt output w = (Raise (SystemExit 1), w') ∧
      posted w' = posted w) ∧
  (∀ input output prompt, ∃ w',
      edit input output prompt w = (Raise (SystemExit 1), w') ∧
      posted w' = posted w).
Proof.
  intros H1 H2.
  assert (∀ msg, truthy (API_KEY (say msg w)) = false) as Hkey.
  { intros msg. unfold API_KEY, py_or. simpl. by rewrite H1. }
  split.
  - intros prompt output. unfold create, bind at 1, echo.
    unfold bind at 1, create_svg, bind at 1.
    destruct (get_headers_missing _ (Hkey ("Creating SVG from prompt: " +:+ prompt)))
      as (w' & -> & Hp & _).
    by exists w'.
  - intros input output prompt. unfold edit, bind at 1, echo.
    unfold bind at 1, edit_svg, bind at 1, try_except at 1, read_text. simpl.
    destruct (files w !! input) as [svg|].
    + unfold bind at 1.
      destruct (get_headers_missing _
        (Hkey ("Editing SVG " +:+ input +:+ " with prompt: " +:+ prompt)))
        as (w' & -> & Hp & _).
      by exists w'.
    + simpl. by eexists.
Qed.

Lemma missing_credential_witness :
  let w := mock_world {[ "ANTHROPIC_API_KEY" := EmptyString ]}
                      (mock_response "<svg></svg>") in
  truthy (environ w !! "ANTHROPIC_API_KEY") = false ∧
  truthy (environ w !! "CLAUDE_API_KEY") = false ∧
  (∀ prompt output, ∃ w',
      create prompt output w = (Raise (SystemExit 1), w') ∧
      posted w' = posted w) ∧
  (∀ input output prompt, ∃ w',
      edit input output prompt w = (Raise (SystemExit 1), w') ∧
      posted w' = posted w).
Proof.
  intros w. split; [reflexivity|]. split; [reflexivity|].
  apply (missing_credential_exits_before_network w); reflexivity.
Defined.

(** C6: when the input file of [edit] does not exist, the command prints
    its banner and the not-found message, ends in [sys.exit(1)], sends
    nothing to the endpoint and leaves every file as it was, whatever the
    credential. *)
Theorem edit_missing_input w input output prompt :
  files w !! input = None →
  ∃ w', edit input output prompt w = (Raise (SystemExit 1), w') ∧
    stdout w' =
      stdout w ++
        [ "Editing SVG " +:+ input +:+ " with prompt: " +:+ prompt;
          "Error: Input file '" +:+ input +:+ "' not found." ] ∧
    posted w' = posted w ∧ files w' = files w.
Proof.
  intros Hf. unfold edit, bind at 1, echo.
  unfold bind at 1, edit_svg, bind at 1, try_except at 1, read_text. simpl.
  rewrite Hf. simpl. eexists. split; [reflexivity|]. simpl.
  by rewrite <- app_assoc.
Qed.

Lemma edit_missing_input_witness :
  let w := mock_world ∅ (mock_response "<svg></svg>") in
  files w !! "absent.svg" = None ∧
  ∃ w', edit "absent.svg" "out.svg" "make it blue" w
          = (Raise (SystemExit 1), w') ∧
    stdout w' =
      stdout w ++
        [ "Editing SVG " +:+ "absent.svg" +:+ " with prompt: " +:+ "make it blue";
          "Error: Input file '" +:+ "absent.svg" +:+ "' not found." ] ∧
    posted w' = posted w ∧ files w' = files w.
Proof.
  intros w. split; [reflexivity|].
  apply (edit_missing_input w "absent.svg" "out.svg" "make it blue").
  reflexivity.
Defined.

(** C2: a response text that has an opening [<svg] but no [</svg>] is
    rejected on both paths: the invalid-output message is printed and the
    call ends in [sys.exit(1)]; the sentinel that [find] yields for the
    absent closing tag is never used to cut a slice. *)
Theorem unclosed_svg_is_invalid_output w k text :
  API_KEY w = Some k → k ≠ EmptyString → answers_with w text →
  contains "<svg" text = true → contains "</svg>" text = false →
  find text "</svg>" = (-1)%Z ∧
  (∀ prompt, ∃ w',
      create_svg prompt w = (Raise (SystemExit 1), w') ∧
      exit_code (create_svg prompt w).1 = 1%Z ∧
      stdout w' =
        stdout w ++
          [ "Error: Claude's response did not contain valid SVG code." ]) ∧
  (∀ input svg prompt, files w !! input = Some svg → ∃ w',
      edit_svg input prompt w = (Raise (SystemExit 1), w') ∧
      exit_code (edit_svg input prompt w).1 = 1%Z ∧
      stdout w' =
        stdout w ++
          [ "Error: Claude's response did not contain valid SVG code." ]).
Proof.
  intros Hk Hne Hans Hopen Hclose. split; [|split].
  - unfold find. by rewrite (contains_false _ _ Hclose).
  - intros prompt.
    destruct (create_svg_answered w k text prompt Hk Hne Hans) as (h & ->).
    rewrite Hopen, Hclose. simpl. by eexists.
  - intros input svg prompt Hf.
    destruct (edit_svg_answered w k text input svg prompt Hf Hk Hne Hans)
      as (h & ->).
    rewrite Hopen, Hclose. simpl. by eexists.
Qed.

Lemma unclosed_svg_witness :
  let text := "<svg><rect width='10' height='10'/>" in
  let w := mock_world test_env (mock_response text) in
  API_KEY w = Some "test_api_key" ∧ "test_api_key" ≠ EmptyString ∧
  answers_with w text ∧
  contains "<svg" text = true ∧ contains "</svg>" text = false ∧
  find text "</svg>" = (-1)%Z ∧
  (∀ prompt, ∃ w',
      create_svg prompt w = (Raise (SystemExit 1), w') ∧
      exit_code (create_svg prompt w).1 = 1%Z ∧
      stdout w' =
        stdout w ++
          [ "Error: Claude's response did not contain valid SVG code." ]) ∧
  (∀ input svg prompt, files w !! input = Some svg → ∃ w',
      edit_svg input prompt w = (Raise (SystemExit 1), w') ∧
      exit_code (edit_svg input prompt w).1 = 1%Z ∧
      stdout w' =
        stdout w ++
          [ "Error: Claude's response did not contain valid SVG code." ]).
Proof.
  intros text w.
  split; [reflexivity|]. split; [discriminate|].
  split; [apply mock_world_answers|].
  split; [reflexivity|]. split; [reflexivity|].
  apply (unclosed_svg_is_invalid_output w "test_api_key" text);
    [reflexivity|discriminate|apply mock_world_answers|reflexivity|reflexivity].
Defined.

(** C5: when the response text has no [<svg] substring, [create] (and
    [edit], for an input file that exists) prints the invalid-output
    message last, ends in [sys.exit(1)], and the files on disk are
    exactly those present before the command ran. *)
Theorem no_svg_no_file w k text :
  API_KEY w = Some k → k ≠ EmptyString → answers_with w text →
  contains "<svg" text = false →
  (∀ prompt output, ∃ w',
      create prompt output w = (Raise (SystemExit 1), w') ∧
      files w' = files w ∧
      last (stdout w') =
        Some "Error: Claude's response did not contain valid SVG code.") ∧
  (∀ input svg output prompt, files w !! input = Some svg → ∃ w',
      edit input output prompt w = (Raise (SystemExit 1), w') ∧
      files w' = files w ∧
      last (stdout w') =
        Some "Error: Claude's response did not contain valid SVG code.").
Proof.
  intros Hk Hne Hans Hopen. split.
  - intros prompt output. unfold create, bind at 1, echo. unfold bind at 1.
    destruct (create_svg_answered
                (say ("Creating SVG from prompt: " +:+ prompt) w)
                k text prompt Hk Hne Hans) as (h & ->).
    rewrite Hopen. simpl. eexists. split; [reflexivity|].
    split; [reflexivity|]. simpl. apply last_snoc.
  - intros input svg output prompt Hf. unfold edit, bind at 1, echo.
    unfold bind at 1.
    destruct (edit_svg_answered
                (say ("Editing SVG " +:+ input +:+ " with prompt: " +:+ prompt) w)
                k text input svg prompt Hf Hk Hne Hans) as (h & ->).
    rewrite Hopen. simpl. eexists. split; [reflexivity|].
    split; [reflexivity|]. simpl. apply last_snoc.
Qed.

Lemma no_svg_no_file_witness :
  let text := "I am sorry, I cannot draw that." in
  let w := mock_world test_env (mock_response text) in
  API_KEY w = Some "test_api_key" ∧ "test_api_key" ≠ EmptyString ∧
  answers_with w text ∧ contains "<svg" text = false ∧
  (∀ prompt output, ∃ w',
      create prompt output w = (Raise (SystemExit 1), w') ∧
      files w' = files w ∧
      last (stdout w') =
        Some "Error: Claude's response did not contain valid SVG code.") ∧
  (∀ input svg output prompt, files w !! input = Some svg → ∃ w',
      edit input output prompt w = (Raise (SystemExit 1), w') ∧
      files w' = files w ∧
      last (stdout w') =
        Some "Error: Claude's response did not contain valid SVG code.").
Proof.
  intros text w.
  split; [reflexivity|]. split; [discriminate|].
  split; [apply mock_world_answers|]. split; [reflexivity|].
  apply (no_svg_no_file w "test_api_key" text);
    [reflexivity|discriminate|apply mock_world_answers|reflexivity].
Defined.

(** C8: with a credential present, [create_svg] makes exactly one call,
    whatever the endpoint does with it, and the body of that call has a
    single user message whose content is the fixed instruction followed
    by the prompt, unchanged. *)
Theorem create_request_embeds_prompt w k prompt :
  API_KEY w = Some k → k ≠ EmptyString →
  ∃ c, posted (create_svg prompt w).2 = posted w ++ [c] ∧
    messages (json c) =
      [ {| role := "user";
           content_of :=
             Text ("Create an SVG image based on this description: "
                     +:+ prompt) |} ].
Proof.
  intros Hk Hne. unfold create_svg, bind at 1.
  rewrite (get_headers_present w k Hk Hne). abstract_headers k h.
  exists (HttpCall API_URL h (create_svg_data prompt) 60).
  split; [|reflexivity].
  unfold try_except, bind, requests_post.
  unfold raise_for_status, response_json, getitem, getitem0.
  repeat (simpl; try reflexivity; answer_case).
Qed.

Lemma create_request_embeds_prompt_witness :
  let w := mock_world test_env (Refused "connection refused") in
  API_KEY w = Some "test_api_key" ∧ "test_api_key" ≠ EmptyString ∧
  ∃ c, posted (create_svg "a blue circle" w).2 = posted w ++ [c] ∧
    messages (json c) =
      [ {| role := "user";
           content_of :=
             Text ("Create an SVG image based on this description: "
                     +:+ "a blue circle") |} ].
Proof.
  intros w. split; [reflexivity|]. split; [discriminate|].
  apply (create_request_embeds_prompt w "test_api_key" "a blue circle");
    [reflexivity|discriminate].
Defined.

(** C7: with a credential present and an input file holding [svg],
    [edit_svg] makes exactly one call, whatever the endpoint does with
    it, and the body of that call has a single user message with two
    text blocks in this order: the instruction followed by the prompt,
    then the text of the file exactly as read. *)
Theorem edit_request_two_blocks w k input svg prompt :
  files w !! input = Some svg → API_KEY w = Some k → k ≠ EmptyString →
  ∃ c, posted (edit_svg input prompt w).2 = posted w ++ [c] ∧
    messages (json c) =
      [ {| role := "user";
           content_of :=
             Blocks
               [ {[ "type" := "text";
                    "text" := "Here is an SVG file. " +:+ prompt ]};
                 {[ "type" := "text"; "text" := svg ]} ] |} ].
Proof.
  intros Hf Hk Hne.
  unfold edit_svg, bind at 1, try_except at 1, read_text. rewrite Hf.
  unfold bind at 1. rewrite (get_headers_present w k Hk Hne).
  abstract_headers k h.
  exists (HttpCall API_URL h (edit_svg_data prompt svg) 60).
  split; [|reflexivity].
  unfold try_except, bind, requests_post.
  unfold raise_for_status, response_json, getitem, getitem0.
  repeat (simpl; try reflexivity; answer_case).
Qed.

Lemma edit_request_two_blocks_witness :
  let w := mock_world test_env (mock_response "<svg></svg>") in
  let svg := "<svg><circle r='40' fill='red'/></svg>" in
  files w !! "test.svg" = Some svg ∧
  API_KEY w = Some "test_api_key" ∧ "test_api_key" ≠ EmptyString ∧
  ∃ c, posted (edit_svg "test.svg" "make it blue" w).2 = posted w ++ [c] ∧
    messages (json c) =
      [ {| role := "user";
           content_of :=
             Blocks
               [ {[ "type" := "text";
                    "text" := "Here is an SVG file. " +:+ "make it blue" ]};
                 {[ "type" := "text"; "text" := svg ]} ] |} ].
Proof.
  intros w svg. split; [reflexivity|]. split; [reflexivity|].
  split; [discriminate|].
  apply (edit_request_two_blocks w "test_api_key" "test.svg" svg "make it blue");
    [reflexivity|reflexivity|discriminate].
Defined.

(** C10: started from the same process state, with an endpoint that
    gives the same reply to every call and an input file that exists,
    [create_svg] and [edit_svg] end the same way (the same returned
    string or the same exception), having printed the same lines and
    left the same files. *)
Theorem extraction_paths_agree w input svg prompt prompt' :
  files w !! input = Some svg →
  (∀ c c', endpoint w c = endpoint w c') →
  (create_svg prompt' w).1 = (edit_svg input prompt w).1 ∧
  stdout (create_svg prompt' w).2 = stdout (edit_svg input prompt w).2 ∧
  files (create_svg prompt' w).2 = files (edit_svg input prompt w).2.
Proof.
  intros Hf Hconst.
  unfold create_svg, edit_svg, bind, try_except, read_text.
  rewrite Hf. cbv beta iota.
  destruct (truthy (API_KEY w)) eqn:Hkey.
  - destruct (API_KEY w) as [k|] eqn:Hk; [|done].
    assert (k ≠ EmptyString) as Hne by (by destruct k).
    rewrite (get_headers_present w k Hk Hne). abstract_headers k h.
    set (r := endpoint w (HttpCall API_URL h (create_svg_data prompt') 60)).
    assert (∀ c, endpoint w c = r) as Hr by (intros c; apply Hconst).
    clearbody r.
    unfold requests_post. rewrite !Hr.
    unfold raise_for_status, response_json, getitem, getitem0.
    destruct r as [?|[[?|] [[]|result]]]; simpl; try done.
    destruct (result !! "content") as [[|block blocks]|]; simpl; try done.
    destruct (block !! "text") as [content|]; simpl; try done.
    by destruct (contains "<svg" content && contains "</svg>" content).
  - destruct (get_headers_missing w Hkey) as (w' & -> & _). done.
Qed.

Lemma extraction_paths_agree_witness :
  let w := mock_world test_env
             (mock_response "Here you go: <svg><rect/></svg> Enjoy!") in
  files w !! "test.svg" = Some "<svg><circle r='40' fill='red'/></svg>" ∧
  (∀ c c', endpoint w c = endpoint w c') ∧
  (create_svg "a square" w).1 = (edit_svg "test.svg" "make it blue" w).1 ∧
  stdout (create_svg "a square" w).2
    = stdout (edit_svg "test.svg" "make it blue" w).2 ∧
  files (create_svg "a square" w).2
    = files (edit_svg "test.svg" "make it blue" w).2.
Proof.
  intros w. split; [reflexivity|]. split; [reflexivity|].
  apply (extraction_paths_agree w "test.svg"
           "<svg><circle r='40' fill='red'/></svg>" "make it blue" "a square");
    reflexivity.
Defined.

(** X13: when the first [<svg] lies in front of the first [</svg>], the
    returned string is the stretch of the text from the one through the
    end of the other: the text is what precedes it, it, and what follows
    it; it begins with [<svg], and its only closing tag is its last six
    characters. *)
Lemma create_svg_ordered w k text prompt i j :
  API_KEY w = Some k → k ≠ EmptyString → answers_with w text →
  index_of text "<svg" = Some i → index_of text "</svg>" = Some j → i < j →
  ∃ w' r, create_svg prompt w = (Return r, w') ∧
    text = take i text +:+ r +:+ drop (j + 6) text ∧
    startswith r "<svg" = true ∧
    index_of r "</svg>" = Some (j - i) ∧ len r = j - i + 6.
Proof.
  intros Hk Hne Hans Hi Hj Hlt.
  destruct (create_svg_answered w k text prompt Hk Hne Hans) as (h & ->).
  rewrite !contains_index_of, Hi, Hj. simpl.
  rewrite (span_offsets text i j Hi Hj). eexists _, _. split; [done|].
  split; [by apply span_split|]. split; [by apply span_starts|].
  split; [by apply span_closes|]. rewrite (span_len text i j Hj Hlt). lia.
Qed.

(** X14: when the first [</svg>] lies in front of the first [<svg], the
    returned string is empty. *)
Lemma create_svg_crossed w k text prompt i j :
  API_KEY w = Some k → k ≠ EmptyString → answers_with w text →
  index_of text "<svg" = Some i → index_of text "</svg>" = Some j → j < i →
  ∃ w', create_svg prompt w = (Return EmptyString, w').
Proof.
  intros Hk Hne Hans Hi Hj Hlt.
  destruct (create_svg_answered w k text prompt Hk Hne Hans) as (h & ->).
  rewrite !contains_index_of, Hi, Hj. simpl.
  rewrite (span_crossed text i j Hi Hj Hlt). by eexists.
Qed.

(** X15: feeding an extracted string back in returns it unchanged,
    provided it was cut with the opening tag in front of the closing
    tag. *)
Lemma create_svg_again w w2 k k2 text prompt i j r :
  API_KEY w = Some k → k ≠ EmptyString → answers_with w text →
  index_of text "<svg" = Some i → index_of text "</svg>" = Some j → i < j →
  (create_svg prompt w).1 = Return r →
  API_KEY w2 = Some k2 → k2 ≠ EmptyString → answers_with w2 r →
  (create_svg prompt w2).1 = Return r.
Proof.
  intros Hk Hne Hans Hi Hj Hlt Hr Hk2 Hne2 Hans2.
  destruct (span_idempotent text i j Hi Hj Hlt) as (Ho & Hc & Hsame).
  destruct (create_svg_answered w k text prompt Hk Hne Hans) as (h & E).
  rewrite E in Hr. rewrite !contains_index_of, Hi, Hj in Hr.
  simpl in Hr. injection Hr as Hr. rewrite Hr in Ho, Hc, Hsame.
  destruct (create_svg_answered w2 k2 r prompt Hk2 Hne2 Hans2) as (h2 & ->).
  rewrite Ho, Hc. simpl. by rewrite Hsame.
Qed.

Example extraction_unchanged :
  (create_svg "draw" (mock_world test_env (mock_response "<svg a/></svg>"))).1
  = Return "<svg a/></svg>".
Proof. vm_compute. reflexivity. Qed.

Example extraction_purifies :
  (create_svg "draw"
     (mock_world test_env
        (mock_response "Here you go:
<svg a/></svg>
Hope that helps!"))).1
  = Return "<svg a/></svg>".
Proof. vm_compute. reflexivity. Qed.

(** C1: the response text [Close the image with </svg>: <svg><rect/></svg>]
    contains both [<svg] and [</svg>], yet [create_svg] returns the empty
    string, which does not begin with [<svg]; [create] then stores an
    empty file and reports success. *)
Theorem closing_tag_first_yields_empty :
  let text := "Close the image with </svg>: <svg><rect/></svg>" in
  let w := mock_world test_env (mock_response text) in
  contains "<svg" text = true ∧ contains "</svg>" text = true ∧
  (create_svg "a square" w).1 = Return EmptyString ∧
  startswith EmptyString "<svg" = false ∧
  (create "a square" "out.svg" w).1 = Return tt ∧
  files (create "a square" "out.svg" w).2 !! "out.svg" = Some EmptyString.
Proof. vm_compute. done. Qed.

(** C9: on the response text [</svg><svg] extraction succeeds with the
    empty string, and extraction applied to that result does not return
    it: the call ends in [sys.exit(1)]. *)
Theorem extraction_of_crossed_tags_not_idempotent :
  let once := (create_svg "draw"
                 (mock_world test_env (mock_response "</svg><svg"))).1 in
  once = Return EmptyString ∧
  (create_svg "draw"
     (mock_world test_env (mock_response EmptyString))).1
  = Raise (SystemExit 1).
Proof. vm_compute. done. Qed.

End Claims.

(** ** Further behaviour of the script *)

Section Credential.

Import Str.

(** X1: a non-empty [ANTHROPIC_API_KEY] is the credential that
    [get_headers] sends, whatever [CLAUDE_API_KEY] holds. *)
Theorem anthropic_key_wins w a :
  environ w !! "ANTHROPIC_API_KEY" = Some a → a ≠ EmptyString →
  ∃ h, get_headers w = (Return h, w) ∧
    (h !! "x-api-key" = Some a ∨
     h !! "authorization" = Some ("Bearer " +:+ a)).
Proof.
  intros Ha Hne.
  assert (API_KEY w = Some a) as Hk.
  { unfold API_KEY, py_or. rewrite Ha. by destruct a. }
  destruct (get_headers_by_prefix_aux w a Hk Hne) as (h & E & Hh).
  exists h. split; [done|]. destruct (startswith a "sk-ant-"); tauto.
Qed.

Lemma anthropic_key_wins_witness :
  let w := mock_world {[ "ANTHROPIC_API_KEY" := "first";
                         "CLAUDE_API_KEY" := "sk-ant-second" ]}
                      (Refused "down") in
  environ w !! "ANTHROPIC_API_KEY" = Some "first" ∧ "first" ≠ EmptyString ∧
  ∃ h, get_headers w = (Return h, w) ∧
    (h !! "x-api-key" = Some "first" ∨
     h !! "authorization" = Some ("Bearer " +:+ "first")).
Proof.
  intros w. split; [reflexivity|]. split; [discriminate|].
  apply (anthropic_key_wins w "first"); [reflexivity|discriminate].
Defined.

(** X2: when [ANTHROPIC_API_KEY] is unset or empty, a non-empty
    [CLAUDE_API_KEY] is the credential that [get_headers] sends. *)
Theorem claude_key_fallback w b :
  truthy (environ w !! "ANTHROPIC_API_KEY") = false →
  environ w !! "CLAUDE_API_KEY" = Some b → b ≠ EmptyString →
  ∃ h, get_headers w = (Return h, w) ∧
    (h !! "x-api-key" = Some b ∨
     h !! "authorization" = Some ("Bearer " +:+ b)).
Proof.
  intros Ha Hb Hne.
  assert (API_KEY w = Some b) as Hk.
  { unfold API_KEY, py_or. by rewrite Ha. }
  destruct (get_headers_by_prefix_aux w b Hk Hne) as (h & E & Hh & _).
  exists h. split; [done|]. destruct (startswith b "sk-ant-"); tauto.
Qed.

Lemma claude_key_fallback_witness :
  let w := mock_world {[ "ANTHROPIC_API_KEY" := EmptyString;
                         "CLAUDE_API_KEY" := "sk-ant-second" ]}
                      (Refused "down") in
  truthy (environ w !! "ANTHROPIC_API_KEY") = false ∧
  environ w !! "CLAUDE_API_KEY" = Some "sk-ant-second" ∧
  "sk-ant-second" ≠ EmptyString ∧
  ∃ h, get_headers w = (Return h, w) ∧
    (h !! "x-api-key" = Some "sk-ant-second" ∨
     h !! "authorization" = Some ("Bearer " +:+ "sk-ant-second")).
Proof.
  intros w. split; [reflexivity|]. split; [reflexivity|].
  split; [discriminate|].
  apply (claude_key_fallback w "sk-ant-second");
    [reflexivity|reflexivity|discriminate].
Defined.

(** X3: whichever credential is present, the headers carry the protocol
    version [2023-06-01], the JSON content type, and exactly one more
    entry. *)
Theorem get_headers_fixed_part w k :
  API_KEY w = Some k → k ≠ EmptyString →
  ∃ h, get_headers w = (Return h, w) ∧
    h !! "anthropic-version" = Some "2023-06-01" ∧
    h !! "content-type" = Some "application/json" ∧
    size h = 3.
Proof.
  intros Hk Hne.
  destruct (get_headers_by_prefix_aux w k Hk Hne) as (h & E & _ & Hh).
  by exists h.
Qed.

Lemma get_headers_fixed_part_witness :
  let w := mock_world test_env (Refused "down") in
  API_KEY w = Some "test_api_key" ∧ "test_api_key" ≠ EmptyString ∧
  ∃ h, get_headers w = (Return h, w) ∧
    h !! "anthropic-version" = Some "2023-06-01" ∧
    h !! "content-type" = Some "application/json" ∧
    size h = 3.
Proof.
  intros w. split; [reflexivity|]. split; [discriminate|].
  apply (get_headers_fixed_part w "test_api_key"); [reflexivity|discriminate].
Defined.

End Credential.

Section Commands.

Import Str.

(** X4: whatever the environment, the endpoint and the prompt, [create]
    makes at most one call; if it makes one, the call goes to [API_URL]
    with a timeout of 60, the body built by [create_svg] for the prompt
    and the version header. *)
Theorem create_posts_at_most_once w prompt output :
  posted (create prompt output w).2 = posted w ∨
  ∃ h, posted (create prompt output w).2 =
         posted w ++ [HttpCall API_URL h (create_svg_data prompt) 60] ∧
       h !! "anthropic-version" = Some "2023-06-01" ∧
       max_tokens (create_svg_data prompt) = 4096%Z ∧
       model (create_svg_data prompt) = MODEL ∧
       system (create_svg_data prompt) = SVG_SYSTEM_PROMPT.
Proof.
  unfold create, create_svg, bind, echo, try_except. cbv beta iota.
  destruct (truthy (API_KEY w)) eqn:Hkey.
  - destruct (API_KEY w) as [k|] eqn:Hk; [|done].
    assert (k ≠ EmptyString) as Hne by (by destruct k).
    destruct (get_headers_by_prefix_aux
                (say ("Creating SVG from prompt: " +:+ prompt) w) k Hk Hne)
      as (h & E & _ & Hv & _).
    rewrite E. right. exists h. split; [|done].
    unfold requests_post, write_text.
    unfold raise_for_status, response_json, getitem, getitem0.
    repeat (simpl; try reflexivity; answer_case).
  - destruct (get_headers_missing
                (say ("Creating SVG from prompt: " +:+ prompt) w) Hkey)
      as (w' & E & Hp & _).
    rewrite E. left. exact Hp.
Qed.

(** X5: whatever the environment, the endpoint and the arguments, [edit]
    makes at most one call; if it makes one, the input file exists and the
    call goes to [API_URL] with a timeout of 60, the body built by
    [edit_svg] from the prompt and the text of that file, and the version
    header. *)
Theorem edit_posts_at_most_once w input output prompt :
  posted (edit input output prompt w).2 = posted w ∨
  ∃ h svg, files w !! input = Some svg ∧
    posted (edit input output prompt w).2 =
      posted w ++ [HttpCall API_URL h (edit_svg_data prompt svg) 60] ∧
    h !! "anthropic-version" = Some "2023-06-01" ∧
    max_tokens (edit_svg_data prompt svg) = 4096%Z ∧
    model (edit_svg_data prompt svg) = MODEL ∧
    system (edit_svg_data prompt svg) = SVG_SYSTEM_PROMPT.
Proof.
  unfold edit, edit_svg, bind, echo, try_except, read_text. cbv beta iota.
  set (w0 := say ("Editing SVG " +:+ input +:+ " with prompt: " +:+ prompt) w).
  destruct (files w0 !! input) as [svg|] eqn:Hf; [|by left].
  destruct (truthy (API_KEY w)) eqn:Hkey.
  - destruct (API_KEY w) as [k|] eqn:Hk; [|done].
    assert (k ≠ EmptyString) as Hne by (by destruct k).
    destruct (get_headers_by_prefix_aux w0 k Hk Hne) as (h & E & _ & Hv & _).
    rewrite E. right. exists h, svg. split; [exact Hf|]. split; [|done].
    unfold requests_post, write_text.
    unfold raise_for_status, response_json, getitem, getitem0.
    repeat (simpl; try reflexivity; answer_case).
  - destruct (get_headers_missing w0 Hkey) as (w' & E & Hp & _).
    rewrite E. left. exact Hp.
Qed.

(** A failure in transit is caught inside [create_svg]: one call is
    made, the transport message is printed, and the call ends in
    [sys.exit(1)]. *)
Lemma create_svg_failed w k e prompt :
  API_KEY w = Some k → k ≠ EmptyString → fails_with w e →
  ∃ h, create_svg prompt w =
    (Raise (SystemExit 1),
     say ("Error calling Claude API: " +:+ e)
       (sent (HttpCall API_URL h (create_svg_data prompt) 60) w)).
Proof.
  intros Hk Hne Hfail. eexists.
  unfold create_svg, bind at 1. rewrite (get_headers_present w k Hk Hne).
  unfold try_except, bind at 1, requests_post.
  match goal with |- context [endpoint w ?c] =>
    destruct (Hfail c) as [-> | (r & -> & [Hs | [Hs Hb]])] end.
  - reflexivity.
  - unfold bind, raise_for_status. rewrite Hs. reflexivity.
  - unfold bind, raise_for_status, response_json. rewrite Hs, Hb. reflexivity.
Qed.

Lemma edit_svg_failed w k e input svg prompt :
  files w !! input = Some svg →
  API_KEY w = Some k → k ≠ EmptyString → fails_with w e →
  ∃ h, edit_svg input prompt w =
    (Raise (SystemExit 1),
     say ("Error calling Claude API: " +:+ e)
       (sent (HttpCall API_URL h (edit_svg_data prompt svg) 60) w)).
Proof.
  intros Hf Hk Hne Hfail. eexists.
  unfold edit_svg, bind at 1, try_except at 1, read_text. rewrite Hf.
  unfold bind at 1. rewrite (get_headers_present w k Hk Hne).
  unfold try_except, bind at 1, requests_post.
  match goal with |- context [endpoint w ?c] =>
    destruct (Hfail c) as [-> | (r & -> & [Hs | [Hs Hb]])] end.
  - reflexivity.
  - unfold bind, raise_for_status. rewrite Hs. reflexivity.
  - unfold bind, raise_for_status, response_json. rewrite Hs, Hb. reflexivity.
Qed.

(** X6: when the call fails in transit with message [e] (connection
    failure, error status, or a body that [json()] rejects with a
    [RequestException]), both commands print their banner and then
    [Error calling Claude API: e], end in [sys.exit(1)], leave every file
    as it was, and have made exactly one call. *)
Theorem transport_error_reported w k e :
  API_KEY w = Some k → k ≠ EmptyString → fails_with w e →
  (∀ prompt output, ∃ w',
      create prompt output w = (Raise (SystemExit 1), w') ∧
      stdout w' =
        stdout w ++ [ "Creating SVG from prompt: " +:+ prompt;
                      "Error calling Claude API: " +:+ e ] ∧
      files w' = files w ∧ length (posted w') = S (length (posted w))) ∧
  (∀ input svg output prompt, files w !! input = Some svg → ∃ w',
      edit input output prompt w = (Raise (SystemExit 1), w') ∧
      stdout w' =
        stdout w ++ [ "Editing SVG " +:+ input +:+ " with prompt: " +:+ prompt;
                      "Error calling Claude API: " +:+ e ] ∧
      files w' = files w ∧ length (posted w') = S (length (posted w))).
Proof.
  intros Hk Hne Hfail. split.
  - intros prompt output. unfold create, bind at 1, echo. unfold bind at 1.
    destruct (create_svg_failed
                (say ("Creating SVG from prompt: " +:+ prompt) w)
                k e prompt Hk Hne Hfail) as (h & ->).
    eexists. split; [reflexivity|]. simpl.
    rewrite <- app_assoc, length_app. simpl. split; [done|]. split; [done|lia].
  - intros input svg output prompt Hf. unfold edit, bind at 1, echo.
    unfold bind at 1.
    destruct (edit_svg_failed
                (say ("Editing SVG " +:+ input +:+ " with prompt: " +:+ prompt) w)
                k e input svg prompt Hf Hk Hne Hfail) as (h & ->).
    eexists. split; [reflexivity|]. simpl.
    rewrite <- app_assoc, length_app. simpl. split; [done|]. split; [done|lia].
Qed.

Lemma transport_error_reported_witness :
  let w := mock_world test_env (Refused "read timed out") in
  API_KEY w = Some "test_api_key" ∧ "test_api_key" ≠ EmptyString ∧
  fails_with w "read timed out" ∧
  (∀ prompt output, ∃ w',
      create prompt output w = (Raise (SystemExit 1), w') ∧
      stdout w' =
        stdout w ++ [ "Creating SVG from prompt: " +:+ prompt;
                      "Error calling Claude API: " +:+ "read timed out" ] ∧
      files w' = files w ∧ length (posted w') = S (length (posted w))) ∧
  (∀ input svg output prompt, files w !! input = Some svg → ∃ w',
      edit input output prompt w = (Raise (SystemExit 1), w') ∧
      stdout w' =
        stdout w ++ [ "Editing SVG " +:+ input +:+ " with prompt: " +:+ prompt;
                      "Error calling Claude API: " +:+ "read timed out" ] ∧
      files w' = files w ∧ length (posted w') = S (length (posted w))).
Proof.
  intros w. split; [reflexivity|]. split; [discriminate|].
  split; [intros c; left; reflexivity|].
  apply (transport_error_reported w "test_api_key" "read timed out");
    [reflexivity|discriminate|intros c; left; reflexivity].
Defined.

(** X7: a decoded body without a [content] entry, with an empty
    [content] list, or whose first block has no [text] entry is not
    reported by the script: the [KeyError] or [IndexError] of the failing
    subscript leaves [create_svg] and [create] uncaught, nothing is printed
    after the banner, no file changes, and the interpreter's exit status
    is 1. *)
Theorem malformed_body_escapes w k e prompt output :
  API_KEY w = Some k → k ≠ EmptyString → answers_without_text w e →
  (create_svg prompt w).1 = Raise e ∧
  stdout (create_svg prompt w).2 = stdout w ∧
  (create prompt output w).1 = Raise e ∧
  exit_code (create prompt output w).1 = 1%Z ∧
  stdout (create prompt output w).2 =
    stdout w ++ [ "Creating SVG from prompt: " +:+ prompt ] ∧
  files (create prompt output w).2 = files w.
Proof.
  intros Hk Hne Hans.
  assert (∀ w0, API_KEY w0 = Some k → answers_without_text w0 e →
    ∃ h, create_svg prompt w0 =
      (Raise e, sent (HttpCall API_URL h (create_svg_data prompt) 60) w0) ∧
      exit_code (@Raise unit e) = 1%Z) as Hrun.
  { clear w Hk Hans. intros w Hk Hans. eexists.
    unfold create_svg, bind at 1. rewrite (get_headers_present w k Hk Hne).
    unfold try_except, bind at 1, requests_post.
    match goal with |- context [endpoint w ?c] =>
      destruct (Hans c) as (result & -> & Hshape) end.
    unfold bind, raise_for_status, response_json, getitem, getitem0. simpl.
    destruct Hshape as [[Hc ->]|[[Hc ->]|(block & blocks & Hc & Ht & ->)]];
      rewrite Hc; simpl; try rewrite Ht; simpl; done. }
  destruct (Hrun w Hk Hans) as (h & E & Hcode).
  destruct (Hrun (say ("Creating SVG from prompt: " +:+ prompt) w) Hk Hans)
    as (h' & E' & _).
  assert (create prompt output w =
            (Raise e,
             sent (HttpCall API_URL h' (create_svg_data prompt) 60)
               (say ("Creating SVG from prompt: " +:+ prompt) w))) as Ecmd.
  { unfold create, bind at 1, echo. unfold bind at 1. by rewrite E'. }
  rewrite E, Ecmd. by repeat split.
Qed.

Lemma malformed_body_escapes_witness :
  let w := mock_world test_env
             (Answered {| status_error := None;
                          body := inr {[ "content" := [] ]} |}) in
  API_KEY w = Some "test_api_key" ∧ "test_api_key" ≠ EmptyString ∧
  answers_without_text w IndexError ∧
  (create_svg "a circle" w).1 = Raise IndexError ∧
  stdout (create_svg "a circle" w).2 = stdout w ∧
  (create "a circle" "out.svg" w).1 = Raise IndexError ∧
  exit_code (create "a circle" "out.svg" w).1 = 1%Z ∧
  stdout (create "a circle" "out.svg" w).2 =
    stdout w ++ [ "Creating SVG from prompt: " +:+ "a circle" ] ∧
  files (create "a circle" "out.svg" w).2 = files w.
Proof.
  intros w.
  assert (answers_without_text w IndexError) as Hans.
  { intros c. eexists. split; [reflexivity|]. right. left. split; reflexivity. }
  split; [reflexivity|]. split; [discriminate|]. split; [exact Hans|].
  apply (malformed_body_escapes w "test_api_key" IndexError "a circle" "out.svg");
    [reflexivity|discriminate|exact Hans].
Defined.





(** X10: when the extraction succeeds but the output path cannot be
    opened for writing, both commands print [Error saving SVG file: ...]
    with the error text after their banner, end in [sys.exit(1)], and
    leave every file as it was, although the call to the endpoint has been
    made. *)
Theorem write_failure_reported w k text err output :
  API_KEY w = Some k → k ≠ EmptyString → answers_with w text →
  contains "<svg" text = true → contains "</svg>" text = true →
  write_errors w !! output = Some err →
  (∀ prompt, ∃ w',
      create prompt output w = (Raise (SystemExit 1), w') ∧
      stdout w' =
        stdout w ++ [ "Creating SVG from prompt: " +:+ prompt;
                      "Error saving SVG file: " +:+ err ] ∧
      files w' = files w ∧ length (posted w') = S (length (posted w))) ∧
  (∀ input svg prompt, files w !! input = Some svg → ∃ w',
      edit input output prompt w = (Raise (SystemExit 1), w') ∧
      stdout w' =
        stdout w ++ [ "Editing SVG " +:+ input +:+ " with prompt: " +:+ prompt;
                      "Error saving SVG file: " +:+ err ] ∧
      files w' = files w ∧ length (posted w') = S (length (posted w))).
Proof.
  intros Hk Hne Hans Ho Hc Hw. split.
  - intros prompt. unfold create, bind at 1, echo. unfold bind at 1.
    destruct (create_svg_answered
                (say ("Creating SVG from prompt: " +:+ prompt) w)
                k text prompt Hk Hne Hans) as (h & ->).
    rewrite Ho, Hc. simpl. unfold try_except, bind, write_text. simpl.
    rewrite Hw. simpl. eexists. split; [reflexivity|]. simpl.
    rewrite <- app_assoc, length_app. simpl. split; [done|]. split; [done|lia].
  - intros input svg prompt Hf. unfold edit, bind at 1, echo. unfold bind at 1.
    destruct (edit_svg_answered
                (say ("Editing SVG " +:+ input +:+ " with prompt: " +:+ prompt) w)
                k text input svg prompt Hf Hk Hne Hans) as (h & ->).
    rewrite Ho, Hc. simpl. unfold try_except, bind, write_text. simpl.
    rewrite Hw. simpl. eexists. split; [reflexivity|]. simpl.
    rewrite <- app_assoc, length_app. simpl. split; [done|]. split; [done|lia].
Qed.

Lemma write_failure_reported_witness :
  let text := "<svg><rect/></svg>" in
  let w := {| environ := test_env;
              files := ∅;
              write_errors := {[ "/out.svg" := "Permission denied" ]};
              endpoint := fun _ => mock_response text;
              stdout := [];
              posted := [] |} in
  API_KEY w = Some "test_api_key" ∧ "test_api_key" ≠ EmptyString ∧
  answers_with w text ∧
  contains "<svg" text = true ∧ contains "</svg>" text = true ∧
  write_errors w !! "/out.svg" = Some "Permission denied" ∧
  (∀ prompt, ∃ w',
      create prompt "/out.svg" w = (Raise (SystemExit 1), w') ∧
      stdout w' =
        stdout w ++ [ "Creating SVG from prompt: " +:+ prompt;
                      "Error saving SVG file: " +:+ "Permission denied" ] ∧
      files w' = files w ∧ length (posted w') = S (length (posted w))) ∧
  (∀ input svg prompt, files w !! input = Some svg → ∃ w',
      edit input "/out.svg" prompt w = (Raise (SystemExit 1), w') ∧
      stdout w' =
        stdout w ++ [ "Editing SVG " +:+ input +:+ " with prompt: " +:+ prompt;
                      "Error saving SVG file: " +:+ "Permission denied" ] ∧
      files w' = files w ∧ length (posted w') = S (length (posted w))).
Proof.
  intros text w.
  assert (answers_with w text) as Hans.
  { intros c. eexists _, _, _. split; [reflexivity|]. split; reflexivity. }
  split; [reflexivity|]. split; [discriminate|]. split; [exact Hans|].
  split; [reflexivity|]. split; [reflexivity|]. split; [reflexivity|].
  apply (write_failure_reported w "test_api_key" text "Permission denied"
           "/out.svg");
    [reflexivity|discriminate|exact Hans|reflexivity|reflexivity|reflexivity].
Defined.

Lemma get_headers_absent w :
  truthy (API_KEY w) = false →
  get_headers w =
    (Raise (SystemExit 1),
     say "Error: Claude API key not found. Please set ANTHROPIC_API_KEY in your environment." w).
Proof.
  intros H. unfold get_headers, validate_api_key, bind, reads.
  by rewrite H.
Qed.




Lemma create_exits_reported w prompt output o w' :
  (∀ c r code, endpoint w c = Answered r → body r ≠ inl (SystemExit code)) →
  create prompt output w = (o, w') →
  ∀ code, o = Raise (SystemExit code) →
    code = 1%Z ∧
    ∃ msg, last (stdout w') = Some msg ∧ startswith msg "Error" = true.
Proof.
  intros Hbody.
  unfold create, create_svg, bind, echo, try_except. cbv beta iota.
  destruct (truthy (API_KEY w)) eqn:Hkey.
  - destruct (API_KEY w) as [k|] eqn:Hk; [|done].
    assert (k ≠ EmptyString) as Hne by (by destruct k).
    rewrite (get_headers_present
               (say ("Creating SVG from prompt: " +:+ prompt) w) k Hk Hne).
    abstract_headers k h.
    unfold requests_post, write_text.
    match goal with |- context [endpoint ?w1 ?c] =>
      destruct (endpoint w1 c) as [e1|[st [e0|result]]] eqn:Hep end.
    + simpl. exit_leaf.
    + destruct e0;
        try (exfalso; exact (Hbody _ _ _ Hep eq_refl));
        unfold raise_for_status, response_json;
        destruct st; simpl; exit_leaf.
    + unfold raise_for_status, response_json, getitem, getitem0.
      destruct st; repeat (simpl; try solve [exit_leaf]; answer_case).
  - rewrite (get_headers_absent
               (say ("Creating SVG from prompt: " +:+ prompt) w) Hkey).
    exit_leaf.
Qed.

Lemma edit_exits_reported w input output prompt o w' :
  (∀ c r code, endpoint w c = Answered r → body r ≠ inl (SystemExit code)) →
  edit input output prompt w = (o, w') →
  ∀ code, o = Raise (SystemExit code) →
    code = 1%Z ∧
    ∃ msg, last (stdout w') = Some msg ∧ startswith msg "Error" = true.
Proof.
  intros Hbody.
  unfold edit, edit_svg, bind, echo, try_except, read_text. cbv beta iota.
  set (w0 := say ("Editing SVG " +:+ input +:+ " with prompt: " +:+ prompt) w).
  destruct (files w0 !! input) as [svg|] eqn:Hf; [|exit_leaf].
  destruct (truthy (API_KEY w)) eqn:Hkey.
  - destruct (API_KEY w) as [k|] eqn:Hk; [|done].
    assert (k ≠ EmptyString) as Hne by (by destruct k).
    rewrite (get_headers_present w0 k Hk Hne).
    abstract_headers k h.
    unfold requests_post, write_text.
    match goal with |- context [endpoint ?w1 ?c] =>
      destruct (endpoint w1 c) as [e1|[st [e0|result]]] eqn:Hep end.
    + simpl. exit_leaf.
    + destruct e0;
        try (exfalso; exact (Hbody _ _ _ Hep eq_refl));
        unfold raise_for_status, response_json;
        destruct st; simpl; exit_leaf.
    + unfold raise_for_status, response_json, getitem, getitem0.
      destruct st; repeat (simpl; try solve [exit_leaf]; answer_case).
  - rewrite (get_headers_absent w0 Hkey). exit_leaf.
Qed.

(** X12: provided [json()] itself does not raise [SystemExit], every run
    of a command that ends in [sys.exit] ends with status 1 and has
    printed, as its last line, a message that begins with [Error]. *)
Theorem every_exit_is_reported w :
  (∀ c r code, endpoint w c = Answered r → body r ≠ inl (SystemExit code)) →
  (∀ prompt output code,
      (create prompt output w).1 = Raise (SystemExit code) →
      code = 1%Z ∧
      ∃ msg, last (stdout (create prompt output w).2) = Some msg ∧
             startswith msg "Error" = true) ∧
  (∀ input output prompt code,
      (edit input output prompt w).1 = Raise (SystemExit code) →
      code = 1%Z ∧
      ∃ msg, last (stdout (edit input output prompt w).2) = Some msg ∧
             startswith msg "Error" = true).
Proof.
  intros Hbody. split.
  - intros prompt output code.
    destruct (create prompt output w) as [o w'] eqn:E.
    exact (create_exits_reported w prompt output o w' Hbody E code).
  - intros input output prompt code.
    destruct (edit input output prompt w) as [o w'] eqn:E.
    exact (edit_exits_reported w input output prompt o w' Hbody E code).
Qed.

Lemma every_exit_is_reported_witness :
  let w := mock_world ∅ (mock_response "no image here") in
  (∀ c r code, endpoint w c = Answered r → body r ≠ inl (SystemExit code)) ∧
  (∀ prompt output code,
      (create prompt output w).1 = Raise (SystemExit code) →
      code = 1%Z ∧
      ∃ msg, last (stdout (create prompt output w).2) = Some msg ∧
             startswith msg "Error" = true) ∧
  (∀ input output prompt code,
      (edit input output prompt w).1 = Raise (SystemExit code) →
      code = 1%Z ∧
      ∃ msg, last (stdout (edit input output prompt w).2) = Some msg ∧
             startswith msg "Error" = true).
Proof.
  intros w.
  assert (∀ c r code, endpoint w c = Answered r →
                      body r ≠ inl (SystemExit code)) as Hbody.
  { intros c r code [= <-]. discriminate. }
  split; [exact Hbody|]. apply (every_exit_is_reported w). exact Hbody.
Defined.

(** X16: without a credential, [create] prints its banner and then the
    key-not-found message; [edit] does the same once its input file has
    been read, so a missing input file is reported first and a missing
    credential only for an input file that exists.  Neither changes a
    file. *)
Theorem missing_credential_message w :
  truthy (API_KEY w) = false →
  (∀ prompt output,
      stdout (create prompt output w).2 =
        stdout w ++
          [ "Creating SVG from prompt: " +:+ prompt;
            "Error: Claude API key not found. Please set ANTHROPIC_API_KEY in your environment." ] ∧
      files (create prompt output w).2 = files w) ∧
  (∀ input svg output prompt, files w !! input = Some svg →
      stdout (edit input output prompt w).2 =
        stdout w ++
          [ "Editing SVG " +:+ input +:+ " with prompt: " +:+ prompt;
            "Error: Claude API key not found. Please set ANTHROPIC_API_KEY in your environment." ] ∧
      files (edit input output prompt w).2 = files w).
Proof.
  intros Hkey. split.
  - intros prompt output.
    unfold create, create_svg, bind, echo, try_except. cbv beta iota.
    rewrite (get_headers_absent
               (say ("Creating SVG from prompt: " +:+ prompt) w) Hkey).
    simpl. by rewrite <- app_assoc.
  - intros input svg output prompt Hf.
    unfold edit, edit_svg, bind, echo, try_except, read_text. cbv beta iota.
    set (w0 := say ("Editing SVG " +:+ input +:+ " with prompt: " +:+ prompt) w).
    change (files w0 !! input) with (files w !! input). rewrite Hf.
    rewrite (get_headers_absent w0 Hkey).
    simpl. by rewrite <- app_assoc.
Qed.

Lemma missing_credential_message_witness :
  let w := mock_world ∅ (mock_response "<svg></svg>") in
  truthy (API_KEY w) = false ∧
  (∀ prompt output,
      stdout (create prompt output w).2 =
        stdout w ++
          [ "Creating SVG from prompt: " +:+ prompt;
            "Error: Claude API key not found. Please set ANTHROPIC_API_KEY in your environment." ] ∧
      files (create prompt output w).2 = files w) ∧
  (∀ input svg output prompt, files w !! input = Some svg →
      stdout (edit input output prompt w).2 =
        stdout w ++
          [ "Editing SVG " +:+ input +:+ " with prompt: " +:+ prompt;
            "Error: Claude API key not found. Please set ANTHROPIC_API_KEY in your environment." ] ∧
      files (edit input output prompt w).2 = files w).
Proof.
  intros w. split; [reflexivity|].
  apply (missing_credential_message w). reflexivity.
Defined.

End Commands.

Section Extraction.

Import Str.

Lemma create_svg_ordered_witness :
  let text := "Here you go: <svg a/></svg> Hope that helps!" in
  let w := mock_world test_env (mock_response text) in
  API_KEY w = Some "test_api_key" ∧ "test_api_key" ≠ EmptyString ∧
  answers_with w text ∧
  index_of text "<svg" = Some 13 ∧ index_of text "</svg>" = Some 21 ∧
  13 < 21 ∧
  ∃ w' r, create_svg "draw" w = (Return r, w') ∧
    text = take 13 text +:+ r +:+ drop (21 + 6) text ∧
    startswith r "<svg" = true ∧
    index_of r "</svg>" = Some (21 - 13) ∧ len r = 21 - 13 + 6.
Proof.
  intros text w. split; [reflexivity|]. split; [discriminate|].
  split; [apply mock_world_answers|]. split; [reflexivity|].
  split; [reflexivity|]. split; [lia|].
  apply (create_svg_ordered w "test_api_key" text "draw" 13 21);
    [reflexivity|discriminate|apply mock_world_answers
    |reflexivity|reflexivity|lia].
Defined.

Lemma create_svg_crossed_witness :
  let text := "Close the image with </svg>: <svg><rect/></svg>" in
  let w := mock_world test_env (mock_response text) in
  API_KEY w = Some "test_api_key" ∧ "test_api_key" ≠ EmptyString ∧
  answers_with w text ∧
  index_of text "<svg" = Some 29 ∧ index_of text "</svg>" = Some 21 ∧
  21 < 29 ∧
  ∃ w', create_svg "draw" w = (Return EmptyString, w').
Proof.
  intros text w. split; [reflexivity|]. split; [discriminate|].
  split; [apply mock_world_answers|]. split; [reflexivity|].
  split; [reflexivity|]. split; [lia|].
  apply (create_svg_crossed w "test_api_key" text "draw" 29 21);
    [reflexivity|discriminate|apply mock_world_answers
    |reflexivity|reflexivity|lia].
Defined.

Lemma create_svg_again_witness :
  let text := "Here you go: <svg a/></svg> Hope that helps!" in
  let r := "<svg a/></svg>" in
  let w := mock_world test_env (mock_response text) in
  let w2 := mock_world {[ "CLAUDE_API_KEY" := "other" ]} (mock_response r) in
  API_KEY w = Some "test_api_key" ∧ "test_api_key" ≠ EmptyString ∧
  answers_with w text ∧
  index_of text "<svg" = Some 13 ∧ index_of text "</svg>" = Some 21 ∧
  13 < 21 ∧ (create_svg "draw" w).1 = Return r ∧
  API_KEY w2 = Some "other" ∧ "other" ≠ EmptyString ∧ answers_with w2 r ∧
  (create_svg "draw" w2).1 = Return r.
Proof.
  intros text r w w2. split; [reflexivity|]. split; [discriminate|].
  split; [apply mock_world_answers|]. split; [reflexivity|].
  split; [reflexivity|]. split; [lia|]. split; [vm_compute; reflexivity|].
  split; [reflexivity|]. split; [discriminate|].
  split; [apply mock_world_answers|].
  apply (create_svg_again w w2 "test_api_key" "other" text "draw" 13 21 r);
    [reflexivity|discriminate|apply mock_world_answers
    |reflexivity|reflexivity|lia|vm_compute; reflexivity
    |reflexivity|discriminate|apply mock_world_answers].
Defined.

End Extraction.
